(** * ELIFV: the Computer Literacy Learning Hub page (src/index.html.jsx)

    A shallow embedding of the page's logic: the [clamp] helper, the
    [LessonCard], [Quiz] and [HelpWidget] components and the [App] component
    with its two [localStorage] preferences.  The JavaScript built-ins the
    code calls ([String.prototype.trim], [Number], [Number.isFinite],
    [Math.min], [Math.max], [String], [Object.is]) are modelled in
    [Module JS] after ECMA-262; React's [useState] setters are modelled as an
    explicit queue of updates that is applied once the handler has returned,
    and [useEffect] as a function on the storage that runs after a render in
    which its dependency has changed. *)

From Stdlib Require Import ZArith QArith Qround Qabs Qcanon Ascii String List Lia Bool.
From Stdlib Require Import DecimalString Lqa.
From stdpp Require Import base gmap strings.
Import ListNotations.

Local Open Scope string_scope.
Local Open Scope list_scope.
Local Open Scope Z_scope.

(** ** JavaScript built-ins *)

Module JS.

(** A JavaScript string is represented by the UTF-8 bytes of its text, as
    the source file stores its literals. *)

Definition byte (c : ascii) : N := N_of_ascii c.

(** [WhiteSpace] and [LineTerminator] code points below U+0080:
    TAB, LF, VT, FF, CR, SP. *)
Definition ws1 (c : ascii) : bool :=
  let n := byte c in
  ((9 <=? n) && (n <=? 13) || (n =? 32))%N.

(** U+00A0 (NBSP), encoded C2 A0. *)
Definition ws2 (c1 c2 : ascii) : bool :=
  ((byte c1 =? 194) && (byte c2 =? 160))%N.

(** The three-byte ones: U+1680 (E1 9A 80), U+2000..U+200A (E2 80 80..8A),
    U+2028, U+2029 (E2 80 A8, A9), U+202F (E2 80 AF), U+205F (E2 81 9F),
    U+3000 (E3 80 80) and U+FEFF (EF BB BF). *)
Definition ws3 (c1 c2 c3 : ascii) : bool :=
  let a := byte c1 in let b := byte c2 in let c := byte c3 in
  ((a =? 225) && (b =? 154) && (c =? 128)
   || (a =? 226) && (b =? 128)
        && ((128 <=? c) && (c <=? 138) || (c =? 168) || (c =? 169) || (c =? 175))
   || (a =? 226) && (b =? 129) && (c =? 159)
   || (a =? 227) && (b =? 128) && (c =? 128)
   || (a =? 239) && (b =? 187) && (c =? 191))%N.

(** Drop the white space a string starts with. *)
Fixpoint trimStart (s : string) : string :=
  match s with
  | String c1 s1 =>
      if ws1 c1 then trimStart s1 else
      match s1 with
      | String c2 s2 =>
          if ws2 c1 c2 then trimStart s2 else
          match s2 with
          | String c3 s3 => if ws3 c1 c2 c3 then trimStart s3 else s
          | EmptyString => s
          end
      | EmptyString => s
      end
  | EmptyString => s
  end.

(** The same on the reversed string: the encodings are read backwards. *)
Fixpoint trimStart_rev (s : string) : string :=
  match s with
  | String c1 s1 =>
      if ws1 c1 then trimStart_rev s1 else
      match s1 with
      | String c2 s2 =>
          if ws2 c2 c1 then trimStart_rev s2 else
          match s2 with
          | String c3 s3 => if ws3 c3 c2 c1 then trimStart_rev s3 else s
          | EmptyString => s
          end
      | EmptyString => s
      end
  | EmptyString => s
  end.

Definition trimEnd (s : string) : string :=
  String.rev (trimStart_rev (String.rev s)).

(** [String.prototype.trim]. *)
Definition trim (s : string) : string := trimEnd (trimStart s).

(** [!s] for a string: only the empty string is falsy. *)
Definition falsy (s : string) : bool :=
  match s with EmptyString => true | _ => false end.

(** *** Number values

    A Number is NaN, an infinity or a finite binary64 value, held as the
    rational it denotes (a reduced fraction).  The sign of zero is not
    represented: nothing in the page tells [-0] from [+0]. *)

Inductive number : Type :=
  | NaN
  | Infinity (negative : bool)
  | Finite (q : Q).

Definition of_Z (z : Z) : number := Finite (inject_Z z).

(** [a <= b] on Numbers; false when either is NaN. *)
Definition leb (a b : number) : bool :=
  match a, b with
  | NaN, _ | _, NaN => false
  | Infinity true, _ => true
  | _, Infinity false => true
  | Infinity false, _ => false
  | _, Infinity true => false
  | Finite p, Finite q => Qle_bool p q
  end.

(** [Object.is] on Numbers (what React compares states and effect
    dependencies with): NaN is the same value as NaN. *)
Definition Object_is (a b : number) : bool :=
  match a, b with
  | NaN, NaN => true
  | Infinity s, Infinity t => Bool.eqb s t
  | Finite p, Finite q => Qeq_bool p q
  | _, _ => false
  end.

Module Math.

Definition min (a b : number) : number :=
  match a, b with
  | NaN, _ | _, NaN => NaN
  | _, _ => if leb a b then a else b
  end.

Definition max (a b : number) : number :=
  match a, b with
  | NaN, _ | _, NaN => NaN
  | _, _ => if leb a b then b else a
  end.

End Math.

(** [Number.isFinite]. *)
Definition isFinite (n : number) : bool :=
  match n with Finite _ => true | _ => false end.

(** [Number.isNaN]. *)
Definition isNaN (n : number) : bool :=
  match n with NaN => true | _ => false end.

(** *** Rounding a real to binary64, ties to even *)

Definition pow2 (e : Z) : Q :=
  if 0 <=? e then inject_Z (2 ^ e) else (1 # Z.to_pos (2 ^ (- e)))%Q.

Definition pow10 (e : Z) : Q :=
  if 0 <=? e then inject_Z (10 ^ e) else (1 # Z.to_pos (10 ^ (- e)))%Q.

(** [floor (log2 a)] for [a > 0]. *)
Definition ilog2 (a : Q) : Z :=
  let k := Z.log2 (Qnum a) - Z.log2 (Zpos (Qden a)) in
  if Qle_bool (pow2 k) a then k else k - 1.

Definition roundHalfEven (m : Q) : Z :=
  let f := Qfloor m in
  match Qcompare (m - inject_Z f)%Q (1 # 2) with
  | Lt => f
  | Gt => f + 1
  | Eq => if Z.even f then f else f + 1
  end.

(** The Number value for a real [q]: the nearest binary64 value (53-bit
    significand, exponents from -1022 to 1023), an infinity when the
    rounded magnitude reaches [2^1024]. *)
Definition round64 (q : Q) : number :=
  match Qcompare q 0%Q with
  | Eq => Finite 0%Q
  | c =>
      let a := Qabs q in
      let e := Z.max (ilog2 a) (-1022) in
      let ulp := pow2 (e - 52) in
      let r := (inject_Z (roundHalfEven (a / ulp)) * ulp)%Q in
      let negative := match c with Lt => true | _ => false end in
      if Qle_bool (pow2 1024) r then Infinity negative
      else Finite (Qred (if negative then (- r)%Q else r))
  end.

(** *** [Number(value)]: StringToNumber (ECMA-262, 7.1.4.1) *)

(** The value of [c] as a digit in [base]. *)
Definition digitValue (base : Z) (c : ascii) : option Z :=
  let n := Z.of_N (byte c) in
  let v := if (48 <=? n) && (n <=? 57) then n - 48
           else if (97 <=? n) && (n <=? 102) then n - 87
           else if (65 <=? n) && (n <=? 70) then n - 55
           else base in
  if v <? base then Some v else None.

(** Read the digits [s] starts with: their value on top of [acc], how many
    were read on top of [count], and what follows them. *)
Fixpoint readDigits (base : Z) (s : string) (acc count : Z) : Z * Z * string :=
  match s with
  | String c s' =>
      match digitValue base c with
      | Some v => readDigits base s' (acc * base + v) (count + 1)
      | None => (acc, count, s)
      end
  | EmptyString => (acc, count, s)
  end.

(** An optional sign: whether it is a minus, and what follows it. *)
Definition stripSign (s : string) : bool * string :=
  match s with
  | String c r =>
      if Ascii.eqb c "+" then (false, r)
      else if Ascii.eqb c "-" then (true, r)
      else (false, s)
  | EmptyString => (false, s)
  end.

(** ExponentPart, optional: [e] or [E], an optional sign, digits. *)
Definition exponentPart (s : string) : option Z :=
  match s with
  | EmptyString => Some 0
  | String c s' =>
      if Ascii.eqb c "e" || Ascii.eqb c "E" then
        let '(neg, d) := stripSign s' in
        match readDigits 10 d 0 0 with
        | (v, n, EmptyString) => if 0 <? n then Some (if neg then - v else v) else None
        | _ => None
        end
      else None
  end.

(** The mathematical value of a StrUnsignedDecimalLiteral other than
    [Infinity]: digits, an optional point and digits, an optional exponent,
    with a digit on at least one side of the point. *)
Definition unsignedDecimal (s : string) : option Q :=
  let '(i, ni, r1) := readDigits 10 s 0 0 in
  let '(m, nf, r2) :=
    match r1 with
    | String c r => if Ascii.eqb c "." then readDigits 10 r i 0 else (i, 0, r1)
    | EmptyString => (i, 0, r1)
    end in
  if 0 <? ni + nf then
    match exponentPart r2 with
    | Some e => Some (inject_Z m * pow10 (e - nf))%Q
    | None => None
    end
  else None.

(** The prefix of a NonDecimalIntegerLiteral: its base and what follows. *)
Definition nonDecimal (s : string) : option (Z * string) :=
  match s with
  | String c0 (String c r) =>
      if negb (Ascii.eqb c0 "0") then None
      else if Ascii.eqb c "x" || Ascii.eqb c "X" then Some (16, r)
      else if Ascii.eqb c "o" || Ascii.eqb c "O" then Some (8, r)
      else if Ascii.eqb c "b" || Ascii.eqb c "B" then Some (2, r)
      else None
  | _ => None
  end.

Definition StringToNumber (s : string) : number :=
  let t := trim s in
  match t with
  | EmptyString => Finite 0%Q
  | _ =>
      match nonDecimal t with
      | Some (base, r) =>
          match readDigits base r 0 0 with
          | (v, n, EmptyString) => if 0 <? n then round64 (inject_Z v) else NaN
          | _ => NaN
          end
      | None =>
          let '(neg, u) := stripSign t in
          if String.eqb u "Infinity" then Infinity neg
          else match unsignedDecimal u with
               | Some mv => round64 (if neg then (- mv)%Q else mv)
               | None => NaN
               end
      end
  end.

(** [Number(v)] for what [localStorage.getItem] returns: [null] (here
    [None]) converts to [+0], a string by [StringToNumber]. *)
Definition Number (v : option string) : number :=
  match v with
  | None => Finite 0%Q
  | Some s => StringToNumber s
  end.

(** *** [String(value)]: Number::toString in radix 10 (ECMA-262, 6.1.6.1.20) *)

(** The decimal digits of an integer [z >= 0]. *)
Definition decimal (z : Z) : string :=
  NilZero.string_of_uint (N.to_uint (Z.to_N z)).

Definition digitCount (z : Z) : Z := Z.of_nat (String.length (decimal z)).

(** [floor (log10 x)] for [x > 0]. *)
Definition ilog10 (x : Q) : Z :=
  let k := digitCount (Qnum x) - digitCount (Zpos (Qden x)) in
  if Qle_bool (pow10 k) x then k else k - 1.

(** The least [k], from [k] on, and the [s] of [k] digits with
    [s * 10^(n-k)] rounding to [x]; of two such [s] the one nearer to [x],
    the even one on a tie.  Seventeen digits always suffice for a binary64
    value. *)
Fixpoint shortest (fuel : nat) (k n : Z) (x : Q) : Z * Z :=
  let scale := pow10 (n - k) in
  let lo := Qfloor (x / scale) in
  let hi := lo + 1 in
  let okLo := Object_is (round64 (inject_Z lo * scale)) (Finite x) in
  let okHi := Object_is (round64 (inject_Z hi * scale)) (Finite x) in
  let nearer :=
    match Qcompare (x - inject_Z lo * scale) (inject_Z hi * scale - x) with
    | Lt => lo
    | Gt => hi
    | Eq => if Z.even lo then lo else hi
    end in
  let pick :=
    if okLo && okHi then Some nearer
    else if okLo then Some lo
    else if okHi then Some hi
    else None in
  match pick, fuel with
  | Some s, _ => (s, k)
  | None, S fuel' => shortest fuel' (k + 1) n x
  | None, O => (lo, k)
  end.

Fixpoint zeros (n : nat) : string :=
  match n with O => EmptyString | S n' => String "0" (zeros n') end.

(** The string of a finite [x > 0]: with [n], [k] and [s] as the standard
    names them ([k] digits [s], the point after the first [n] of them),
    plain digits when [k <= n <= 21], a point inside the digits when
    [0 < n <= 21], leading zeros when [-6 < n <= 0], the exponent form
    otherwise.  When the digits found are those of a power of ten just above
    [x] they are the single digit 1, one place further to the left. *)
Definition positiveToString (x : Q) : string :=
  let n0 := ilog10 x + 1 in
  let '(s0, k0) := shortest 16 1 n0 x in
  let '(s, k, n) := if s0 =? 10 ^ k0 then (1, 1, n0 + 1) else (s0, k0, n0) in
  let digits := decimal s in
  if (k <=? n) && (n <=? 21) then
    digits +:+ zeros (Z.to_nat (n - k))
  else if (0 <? n) && (n <=? 21) then
    substring 0 (Z.to_nat n) digits +:+ "." +:+
    substring (Z.to_nat n) (Z.to_nat (k - n)) digits
  else if (-6 <? n) && (n <=? 0) then
    "0." +:+ zeros (Z.to_nat (- n)) +:+ digits
  else
    let e := n - 1 in
    let exponent := (if e <? 0 then "e-" else "e+") +:+ decimal (Z.abs e) in
    if k =? 1 then digits +:+ exponent
    else substring 0 1 digits +:+ "." +:+
         substring 1 (Z.to_nat (k - 1)) digits +:+ exponent.

Definition NumberToString (x : number) : string :=
  match x with
  | NaN => "NaN"
  | Infinity false => "Infinity"
  | Infinity true => "-Infinity"
  | Finite q =>
      match Qcompare q 0%Q with
      | Eq => "0"
      | Lt => "-" +:+ positiveToString (- q)%Q
      | Gt => positiveToString q
      end
  end.

(** [String(b)] for a boolean. *)
Definition BooleanToString (b : bool) : string :=
  if b then "true" else "false".

End JS.

(** ** Helpers and data (src/index.html.jsx, lines 13-46) *)

Module LS_KEYS.
Definition eli5 : string := "app:eli5".
Definition fontSize : string := "app:fontSizePx".
End LS_KEYS.

Definition clamp (n min max : JS.number) : JS.number :=
  JS.Math.max min (JS.Math.min max n).

Module Lesson.
Record t := {
  id : string;
  title : string;
  normal : string;
  eli5 : string;
}.
End Lesson.
Import Lesson (id, title, normal).

Definition lessons : list Lesson.t :=
  [ {| id := "lesson1";
       title := "Turning On a Computer";
       normal := "Press the power button on your computer case or laptop. Wait a few seconds until the screen lights up and the system loads.";
       Lesson.eli5 := "Find the round button with a line ‚ö°. Press it gently. Wait a bit ‚Äî your computer wakes up like a person opening their eyes." |};
    {| id := "lesson2";
       title := "Using a Mouse";
       normal := "Move the mouse on a flat surface. The pointer on the screen follows your hand movements. Click the left button to select.";
       Lesson.eli5 := "Slide the mouse like a tiny car üöó. The arrow copies you! Tap the left button to pick things." |};
    {| id := "lesson3";
       title := "Opening Programs";
       normal := "Click the Start button (Windows logo) on the taskbar. Choose a program from the list to open it.";
       Lesson.eli5 := "Click the little window button ü™ü at the corner. Pick the picture of the app you want‚Äîlike choosing a toy from a box!" |} ].

(** ** React state

    A handler or an effect does not change the state it reads: each setter
    call queues an update, and the queue is applied in order, each updater
    function on the result of the one before, once the handler has returned. *)

Section Updates.
Context {S U : Type} (apply : S -> U -> S).

Definition flush (st : S) (queue : list U) : S := fold_left apply queue st.

End Updates.

(** ** LessonCard (lines 83-101) *)

Record element := {
  tag : string;
  className : list string;
  children : string;
}.

Definition LessonCard (title normal eli5 : string) (showEli5 : bool) : list element :=
  [ {| tag := "h3";
       className := ["text-xl"; "font-semibold"; "mb-2"];
       children := title |};
    {| tag := "p";
       className := ["leading-relaxed"; if showEli5 then "hidden" else "block"];
       children := normal |};
    {| tag := "p";
       className := ["leading-relaxed"; "text-lg"; if showEli5 then "block" else "hidden"];
       children := eli5 |} ].

(** The style sheet's [hidden] class is [display: none]: an element that
    carries it is not shown. *)
Definition shown (e : element) : bool :=
  negb (existsb (String.eqb "hidden") (className e)).

(** The text paragraphs of a card that are shown. *)
Definition shownText (card : list element) : list string :=
  map children (filter (fun e => String.eqb (tag e) "p" && shown e) card).

(** ** Toggle (lines 49-81) *)

Module ToggleButton.

(** The button drawn: its [id], [aria-pressed], its classes, the classes of
    the knob inside it and its label. *)
Record view := {
  id : option string;
  aria_pressed : bool;
  className : list string;
  knob : list string;
  children : string;
}.

Definition Toggle (pressed : bool) (children : string) (id : option string) : view :=
  {| id := id;
     aria_pressed := pressed;
     className :=
       ["inline-flex"; "items-center"; "gap-2"; "rounded-2xl"; "border"; "px-4";
        "py-2"; "shadow-sm"; "transition"; "active:translate-y-[1px]"]
       ++ (if pressed then ["border-emerald-600"; "bg-emerald-600"; "text-white"]
           else ["border-gray-300"; "bg-white"; "text-gray-900"; "hover:bg-gray-50"]);
     knob :=
       ["block"; "h-5"; "w-5"; "rounded-full"; "bg-white"; "shadow";
        "transition-transform"; if pressed then "translate-x-4" else "translate-x-0"];
     children := children |}.

End ToggleButton.

(** ** Quiz (lines 103-138) *)

Module Quiz.

(** The [answer] state: [None] is [null]. *)
Definition state := option string.

Definition initial : state := None.

Record opt := { key : string; label : string }.

Definition options : list opt :=
  [ {| key := "correct"; label := "The round button with a line" |};
    {| key := "mouse"; label := "The mouse" |};
    {| key := "spacebar"; label := "The keyboard spacebar" |} ].

(** [onClick={() => setAnswer(opt.key)}] *)
Definition onClick (o : opt) (answer : state) : state := Some (key o).

Definition isCorrect (answer : state) : bool :=
  match answer with
  | Some a => String.eqb a "correct"
  | None => false
  end.

Definition positive : string := "‚úÖ Correct! That‚Äôs the power button.".
Definition negative : string := "‚ùå Not quite. Try again!".

(** The feedback paragraph, [answer && (<p>...</p>)]: nothing while
    [answer] is [null] (or empty). *)
Definition feedback (answer : state) : option string :=
  match answer with
  | None => None
  | Some a =>
      if JS.falsy a then None
      else Some (if isCorrect answer then positive else negative)
  end.

(** The option buttons, lines 112-129: the one whose key is the answer
    carries the filled classes. *)
Definition buttons (answer : state) : list element :=
  map (fun o =>
         {| tag := "button";
            className :=
              ["rounded-xl"; "border"; "px-3"; "py-2"; "text-left"; "transition";
               "focus:outline-none"; "focus:ring-2"; "focus:ring-emerald-600"]
              ++ (if match answer with
                     | Some a => String.eqb a (key o)
                     | None => false
                     end
                  then ["border-emerald-600"; "bg-emerald-600"; "text-white"]
                  else ["border-gray-300"; "bg-white"; "hover:bg-gray-50"]);
            children := label o |})
      options.

Definition highlighted (e : element) : bool :=
  existsb (String.eqb "bg-emerald-600") (className e).

(** The feedback paragraph with its colour, lines 131-135. *)
Definition feedbackView (answer : state) : option element :=
  match answer with
  | None => None
  | Some a =>
      if JS.falsy a then None
      else Some {| tag := "p";
                   className := ["mt-3"; "font-medium";
                                 if isCorrect answer then "text-emerald-700"
                                 else "text-rose-700"];
                   children := if isCorrect answer then positive else negative |}
  end.

(** A session: the options clicked, in order. *)
Definition run (clicks : list opt) (answer : state) : state :=
  fold_left (fun a o => onClick o a) clicks answer.

End Quiz.

(** ** HelpWidget (lines 140-219) *)

Module HelpWidget.

Inductive sender := you | bot.

Module Message.
Record t := { from : sender; text : string }.
End Message.
Abbreviation message := Message.t.

Record state := {
  open : bool;
  messages : list message;
  text : string;
}.

Definition greeting : message :=
  {| Message.from := bot; Message.text := "Hi! Need help? Ask me about any lesson." |}.

Definition initial : state :=
  {| open := false; messages := [greeting]; text := EmptyString |}.

Definition reply : message :=
  {| Message.from := bot;
     Message.text := "I‚Äôll explain simply: computers are tools. Which part confuses you ‚Äî power button, mouse, or opening apps?" |}.

(** Calls of the three setters. *)
Inductive update :=
  | setOpen (f : bool -> bool)
  | setMessages (f : list message -> list message)
  | setText (v : string).

Definition apply (st : state) (u : update) : state :=
  match u with
  | setOpen f => {| open := f (open st); messages := messages st; text := text st |}
  | setMessages f => {| open := open st; messages := f (messages st); text := text st |}
  | setText v => {| open := open st; messages := messages st; text := v |}
  end.

(** [send], lines 147-162: the updates it queues. *)
Definition send (st : state) : list update :=
  let t := JS.trim (text st) in
  if JS.falsy t then []
  else
    [ setMessages (fun m => m ++ [ {| Message.from := you; Message.text := t |} ]);
      setMessages (fun m => m ++ [ {| Message.from := you; Message.text := t |}; reply ]);
      setText EmptyString ].

(** The events of the widget and the updates each handler queues. *)
Inductive event :=
  | Change (value : string)
  | KeyDown (key : string)
  | ClickSend
  | ClickToggle.

Definition handler (ev : event) (st : state) : list update :=
  match ev with
  | Change value => [setText value]
  | KeyDown key => if String.eqb key "Enter" then send st else []
  | ClickSend => send st
  | ClickToggle => [setOpen negb]
  end.

Definition step (st : state) (ev : event) : state := flush apply st (handler ev st).

Definition run (evs : list event) (st : state) : state := fold_left step evs st.

End HelpWidget.

(** ** App (lines 221-322) *)

Module App.

Record state := {
  eli5 : bool;
  fontSize : JS.number;
}.

(** The initializer of [fontSize], lines 223-226. *)
Definition initFontSize (localStorage : gmap string string) : JS.number :=
  let saved := JS.Number (localStorage !! LS_KEYS.fontSize) in
  if JS.isFinite saved then clamp saved (JS.of_Z 14) (JS.of_Z 24) else JS.of_Z 16.

(** Calls of the two setters; a call with a value is the constant updater. *)
Inductive update :=
  | setEli5 (f : bool -> bool)
  | setFontSize (f : JS.number -> JS.number).

Definition apply (st : state) (u : update) : state :=
  match u with
  | setEli5 f => {| eli5 := f (eli5 st); fontSize := fontSize st |}
  | setFontSize f => {| eli5 := eli5 st; fontSize := f (fontSize st) |}
  end.

(** The mount-only effect, lines 228-231. *)
Definition loadEli5 (localStorage : gmap string string) : list update :=
  match localStorage !! LS_KEYS.eli5 with
  | Some savedEli5 =>
      if JS.falsy savedEli5 then []
      else [setEli5 (fun _ => String.eqb savedEli5 "true")]
  | None => []
  end.

(** The effect on [eli5], lines 233-235. *)
Definition persistEli5 (st : state) (localStorage : gmap string string) : gmap string string :=
  <[LS_KEYS.eli5 := JS.BooleanToString (eli5 st)]> localStorage.

(** The effect on [fontSize], lines 237-239. *)
Definition persistFontSize (st : state) (localStorage : gmap string string) : gmap string string :=
  <[LS_KEYS.fontSize := JS.NumberToString (fontSize st)]> localStorage.

(** After a render that follows [old], an effect runs when its dependency
    is not the same value ([Object.is]) as before. *)
Definition effects (old new : state) (localStorage : gmap string string) : gmap string string :=
  let ls1 := if Bool.eqb (eli5 old) (eli5 new) then localStorage
             else persistEli5 new localStorage in
  if JS.Object_is (fontSize old) (fontSize new) then ls1
  else persistFontSize new ls1.

(** The page: the component's state and the browser's storage. *)
Definition page : Type := state * gmap string string.

(** Loading the page: the first render from the initial states, then all
    three effects in order (the first only queues its update, so the other
    two see the first render's values), then the queued update and the
    effects it triggers. *)
Definition mount (localStorage : gmap string string) : page :=
  let st0 := {| eli5 := false; fontSize := initFontSize localStorage |} in
  let queue := loadEli5 localStorage in
  let ls := persistFontSize st0 (persistEli5 st0 localStorage) in
  let st1 := flush apply st0 queue in
  (st1, effects st0 st1 ls).

Inductive event :=
  | Toggle                     (* the ELI5 switch is activated *)
  | FontChange (value : string). (* onChange of the slider, [e.target.value] *)

(** Lines 255 and 268. *)
Definition handler (ev : event) : list update :=
  match ev with
  | Toggle => [setEli5 negb]
  | FontChange value =>
      [setFontSize (fun _ => clamp (JS.Number (Some value)) (JS.of_Z 14) (JS.of_Z 24))]
  end.

Definition step (p : page) (ev : event) : page :=
  let st := flush apply p.1 (handler ev) in
  (st, effects p.1 st p.2).

Definition run (evs : list event) (p : page) : page := fold_left step evs p.

(** Line 241. *)
Definition fontClass (st : state) : string :=
  "text-[" +:+ JS.NumberToString (fontSize st) +:+ "px]".

(** The lesson cards of the page, lines 296-300. *)
Definition cards (st : state) : list (list element) :=
  map (fun l => LessonCard (title l) (normal l) (Lesson.eli5 l) (eli5 st)) lessons.

(** The switch of the page, lines 255-257. *)
Definition switch (st : state) : ToggleButton.view :=
  ToggleButton.Toggle (eli5 st) (if eli5 st then "ELI5: ON" else "ELI5: OFF")
                      (Some "eli5-toggle").

(** The links of the navigation bar, lines 280-293: target and text. *)
Definition nav : list (string * string) :=
  map (fun l => ("#" +:+ id l, title l)) lessons ++ [("#quiz", "Quiz")].

(** The [id] attributes the page sets, in document order: the switch, the
    slider, the lesson sections and the quiz section. *)
Definition ids : list string :=
  ["eli5-toggle"; "font"] ++ map id lessons ++ ["quiz"].

(** A slider position [v] as the slider reports it. *)
Definition position (v : Z) : string := JS.decimal v.

End App.

(** ** Predicates the properties are stated with *)

(** The slider's range, 14 to 24. *)
Definition inRange (n : JS.number) : bool :=
  JS.leb (JS.of_Z 14) n && JS.leb n (JS.of_Z 24).

(** A finite Number is held as a reduced fraction. *)
Definition canonical (n : JS.number) : Prop :=
  match n with
  | JS.Finite q => Qred q = q
  | _ => True
  end.

Definition isDigit (c : ascii) : bool :=
  match JS.digitValue 10 c with Some _ => true | None => false end.

(** No decimal digit occurs in [s]. *)
Fixpoint noDigit (s : string) : bool :=
  match s with
  | String c r => negb (isDigit c) && noDigit r
  | EmptyString => true
  end.

(** One or more decimal digits. *)
Fixpoint allDigits (s : string) : bool :=
  match s with
  | String c EmptyString => isDigit c
  | String c r => isDigit c && allDigits r
  | EmptyString => false
  end.

(** The specification's "well-formed decimal integer string": decimal
    digits, after an optional minus sign. *)
Definition decimalInteger (s : string) : bool :=
  match s with
  | String c r => if Ascii.eqb c "-" then allDigits r else allDigits s
  | EmptyString => false
  end.

(** The storage holds what the two persisting effects last wrote for the
    page's state. *)
Definition synced (p : App.page) : Prop :=
  p.2 !! LS_KEYS.eli5 = Some (JS.BooleanToString (App.eli5 p.1))
  /\ p.2 !! LS_KEYS.fontSize = Some (JS.NumberToString (App.fontSize p.1))
  /\ canonical (App.fontSize p.1).

(** The slider reports a numeric value: one that [Number] does not
    convert to NaN. *)
Definition numeric (ev : App.event) : Prop :=
  match ev with
  | App.FontChange value => JS.isNaN (JS.Number (Some value)) = false
  | App.Toggle => True
  end.

(** * Properties *)

(** ** LessonCard *)

(** C6: for every card and every value of the flag, of the card's two text
    paragraphs the normal one is shown exactly when the flag is off and the
    simplified one exactly when it is on, so exactly one text is shown: the
    simplified text when the flag is true, the normal text when it is false;
    so it is for each of the page's lesson cards under the page's flag. *)
Theorem LessonCard_shows_one_variant :
  (forall (title normal eli5 : string) (showEli5 : bool),
      map (fun e => (children e, shown e))
          (filter (fun e => String.eqb (tag e) "p")
                  (LessonCard title normal eli5 showEli5))
      = [(normal, negb showEli5); (eli5, showEli5)]
      /\ shownText (LessonCard title normal eli5 showEli5)
         = [if showEli5 then eli5 else normal])
  /\ (forall st : App.state,
         map shownText (App.cards st)
         = map (fun l => [if App.eli5 st then Lesson.eli5 l else normal l]) lessons).
Proof.
  split.
  - intros title normal eli5 []; split; reflexivity.
  - intros [[] fs]; reflexivity.
Qed.

(** ** Quiz *)

Module QuizFacts.
Import Quiz.

Lemma texts_differ : positive <> negative.
Proof. discriminate. Qed.

(** C7: whatever was selected before (nothing, another option or the same
    one), clicking an option makes its key the answer, and the feedback
    shown is the positive text for "correct" and the negative text for
    "mouse" and for "spacebar"; so after any session the feedback is the one
    of the option clicked last. *)
Theorem feedback_follows_last_click (prev : state) (clicks : list opt) :
  map (fun o => (key o, onClick o prev, feedback (onClick o prev))) options
  = [ ("correct", Some "correct", Some positive);
      ("mouse", Some "mouse", Some negative);
      ("spacebar", Some "spacebar", Some negative) ]
  /\ map (fun o => feedback (run (clicks ++ [o]) initial)) options
     = [Some positive; Some negative; Some negative].
Proof.
  split; [reflexivity|].
  unfold run. cbn [map options]. now rewrite !fold_left_app.
Qed.

End QuizFacts.

(** ** HelpWidget *)

Module HelpWidgetFacts.
Import HelpWidget.

Lemma falsy_spec (s : string) : JS.falsy s = true <-> s = EmptyString.
Proof. destruct s; simpl; split; congruence. Qed.

(** What a send does to a text that is not blank: both queued updaters run,
    the second on the result of the first. *)
Lemma send_nonblank (st : state) :
  JS.trim (text st) <> EmptyString ->
  step st ClickSend
  = {| open := open st;
       messages := messages st
                   ++ [ {| Message.from := you; Message.text := JS.trim (text st) |};
                        {| Message.from := you; Message.text := JS.trim (text st) |};
                        reply ];
       text := EmptyString |}.
Proof.
  intros Ht. unfold step, handler, send.
  destruct (JS.falsy (JS.trim (text st))) eqn:E.
  - apply falsy_spec in E. contradiction.
  - cbn. now rewrite <- app_assoc.
Qed.

(** C1, at the input "hi" typed into the freshly loaded widget: the send
    appends three entries, the user's message twice and then the reply. *)
Theorem send_hi_appends_three :
  messages (run [Change "hi"; ClickSend] initial)
  = [ greeting;
      {| Message.from := you; Message.text := "hi" |};
      {| Message.from := you; Message.text := "hi" |};
      reply ].
Proof. reflexivity. Qed.

(** C8: when the trimmed text is empty the send queues no update, and the
    state after it (by the button or by the Enter key) is the state before:
    no entry is appended and nothing else changes. *)
Theorem send_blank_noop (st : state) :
  JS.trim (text st) = EmptyString ->
  send st = []
  /\ step st ClickSend = st
  /\ step st (KeyDown "Enter") = st.
Proof.
  intros Ht. unfold step, handler, send. cbn. rewrite Ht. cbn. auto.
Qed.

Lemma send_blank_noop_witness :
  step {| open := true; messages := [greeting]; text := "   " |} ClickSend
  = {| open := true; messages := [greeting]; text := "   " |}.
Proof.
  apply (send_blank_noop {| open := true; messages := [greeting]; text := "   " |}).
  reflexivity.
Defined.

(** C9: the toggle changes the open flag and nothing else, so from a
    collapsed panel three toggles (open, close, open) leave it expanded with
    the message log, and the input text, as they were. *)
Theorem toggle_thrice (st : state) :
  step st ClickToggle
  = {| open := negb (open st); messages := messages st; text := text st |}
  /\ (open st = false ->
      run [ClickToggle; ClickToggle; ClickToggle] st
      = {| open := true; messages := messages st; text := text st |}).
Proof.
  split; [reflexivity|].
  intros Ho. destruct st as [o m t]. cbn in *. subst o. reflexivity.
Qed.

Lemma toggle_thrice_witness :
  run [ClickToggle; ClickToggle; ClickToggle] initial
  = {| open := true; messages := [greeting]; text := EmptyString |}.
Proof. apply (proj2 (toggle_thrice initial)). reflexivity. Defined.

End HelpWidgetFacts.

(** ** Numbers *)

Module NumberFacts.
Import JS.

Lemma round64_canonical (q : Q) : canonical (round64 q).
Proof.
  unfold round64.
  destruct (Qcompare q 0); [reflexivity| |];
    match goal with |- canonical (if ?b then _ else _) => destruct b end;
    cbn; auto using Qred_involutive.
Qed.

Lemma StringToNumber_canonical (s : string) : canonical (StringToNumber s).
Proof.
  unfold StringToNumber.
  destruct (trim s) as [|c t]; [reflexivity|].
  destruct (nonDecimal (String c t)) as [[base r]|].
  - destruct (readDigits base r 0 0) as [[v n] [|c' rest]]; [|exact I].
    destruct (0 <? n); [apply round64_canonical | exact I].
  - destruct (stripSign (String c t)) as [neg u].
    destruct (String.eqb u "Infinity"); [exact I|].
    destruct (unsignedDecimal u); [apply round64_canonical | exact I].
Qed.

Lemma Number_canonical (v : option string) : canonical (Number v).
Proof. destruct v; [apply StringToNumber_canonical | reflexivity]. Qed.

Lemma min_cases (a b : number) :
  Math.min a b = a \/ Math.min a b = b \/ Math.min a b = NaN.
Proof. unfold Math.min. destruct a, b; auto; destruct (leb _ _); auto. Qed.

Lemma max_cases (a b : number) :
  Math.max a b = a \/ Math.max a b = b \/ Math.max a b = NaN.
Proof. unfold Math.max. destruct a, b; auto; destruct (leb _ _); auto. Qed.

Lemma clamp_canonical (n lo hi : number) :
  canonical n -> canonical lo -> canonical hi -> canonical (clamp n lo hi).
Proof.
  intros Hn Hlo Hhi. unfold clamp.
  destruct (max_cases lo (Math.min hi n)) as [-> | [-> | ->]].
  - exact Hlo.
  - destruct (min_cases hi n) as [-> | [-> | ->]]; [exact Hhi | exact Hn | exact I].
  - exact I.
Qed.

Lemma Object_is_refl (a : number) : Object_is a a = true.
Proof.
  destruct a as [|b|q]; cbn; auto using Qeq_bool_refl. now destruct b.
Qed.

Lemma Object_is_eq (a b : number) :
  canonical a -> canonical b -> Object_is a b = true -> a = b.
Proof.
  destruct a as [|s|p], b as [|t|q]; cbn; try discriminate; auto.
  - intros _ _ H. apply eqb_prop in H. now subst.
  - intros Hp Hq H. apply Qeq_bool_iff, Qred_complete in H. congruence.
Qed.

(** On a Number that is not NaN, [clamp] to the slider's bounds stays
    within them. *)
Lemma clamp_inRange (n : number) :
  isNaN n = false -> inRange (clamp n (of_Z 14) (of_Z 24)) = true.
Proof.
  intros Hn. destruct n as [|[]|q]; [discriminate|reflexivity|reflexivity|].
  unfold clamp, Math.min, of_Z, leb.
  destruct (Qle_bool (inject_Z 24) q) eqn:Hhi; [reflexivity|].
  unfold Math.max, leb.
  destruct (Qle_bool (inject_Z 14) q) eqn:Hlo; [|reflexivity].
  unfold inRange, of_Z, leb. rewrite Hlo. cbn [andb].
  apply Qle_bool_iff, Qlt_le_weak, Qnot_le_lt.
  intros H. apply Qle_bool_iff in H. congruence.
Qed.

Lemma clamp_NaN (lo hi : number) : clamp NaN lo hi = NaN.
Proof. unfold clamp, Math.min, Math.max. now destruct hi, lo. Qed.

End NumberFacts.

(** *** Strings that hold no digit *)

Module NoDigit.
Import JS.

Lemma readDigits_none (s : string) (acc count : Z) :
  noDigit s = true -> readDigits 10 s acc count = (acc, count, s).
Proof.
  destruct s as [|c r]; cbn [readDigits noDigit]; [reflexivity|].
  unfold isDigit. destruct (digitValue 10 c); [discriminate | reflexivity].
Qed.

Lemma tail (c : ascii) (r : string) : noDigit (String c r) = true -> noDigit r = true.
Proof. cbn [noDigit]. intros H. now apply andb_true_iff in H. Qed.

Lemma unsignedDecimal_none (u : string) :
  noDigit u = true -> unsignedDecimal u = None.
Proof.
  intros H. unfold unsignedDecimal. rewrite (readDigits_none _ _ _ H).
  destruct u as [|c r]; [reflexivity|].
  destruct (Ascii.eqb c "."); [|reflexivity].
  now rewrite (readDigits_none _ _ _ (tail _ _ H)).
Qed.

Lemma nonDecimal_none (t : string) : noDigit t = true -> nonDecimal t = None.
Proof.
  destruct t as [|c0 [|c r]]; try reflexivity.
  intros H. cbn [nonDecimal].
  destruct (Ascii.eqb c0 "0") eqn:E; [|reflexivity].
  apply Ascii.eqb_eq in E. subst c0. discriminate H.
Qed.

Lemma stripSign_keeps (t : string) :
  noDigit t = true -> noDigit (stripSign t).2 = true.
Proof.
  destruct t as [|c r]; [reflexivity|]. intros H. cbn [stripSign].
  destruct (Ascii.eqb c "+"); [exact (tail _ _ H)|].
  destruct (Ascii.eqb c "-"); [exact (tail _ _ H) | exact H].
Qed.

Lemma rev_app_keeps (s1 s2 : string) :
  noDigit (String.rev_app s1 s2) = noDigit s1 && noDigit s2.
Proof.
  revert s2. induction s1 as [|c s1 IH]; intros s2; [reflexivity|].
  cbn [String.rev_app]. rewrite IH. cbn [noDigit].
  now destruct (isDigit c), (noDigit s1), (noDigit s2).
Qed.

Lemma rev_keeps (s : string) : noDigit (String.rev s) = noDigit s.
Proof. unfold String.rev. rewrite rev_app_keeps. cbn. now rewrite andb_true_r. Qed.

(** Both trimming loops return what is left of their argument after some
    leading bytes: one proof for the two, by induction on a bound of the
    length. *)
Ltac trim_loop IH H :=
  repeat match goal with
    | |- noDigit (if ?b then _ else _) = true => destruct b
    | |- noDigit (match ?s with EmptyString => _ | String _ _ => _ end) = true =>
        destruct s
    | |- noDigit (String _ _) = true => exact H
    | |- noDigit EmptyString = true => reflexivity
    | |- _ => apply IH; [cbn [String.length] in *; lia | ]
    | |- _ => solve [eauto using tail]
    end.

Lemma trimStart_keeps (s : string) :
  noDigit s = true -> noDigit (trimStart s) = true.
Proof.
  remember (String.length s) as n eqn:Hn.
  assert (Hle : (String.length s <= n)%nat) by lia. clear Hn.
  revert s Hle. induction n as [|n IH]; intros s Hle H.
  - destruct s; [reflexivity | cbn in Hle; lia].
  - destruct s as [|c1 s1]; [reflexivity|]. cbn [trimStart]. trim_loop IH H.
Qed.

Lemma trimStart_rev_keeps (s : string) :
  noDigit s = true -> noDigit (trimStart_rev s) = true.
Proof.
  remember (String.length s) as n eqn:Hn.
  assert (Hle : (String.length s <= n)%nat) by lia. clear Hn.
  revert s Hle. induction n as [|n IH]; intros s Hle H.
  - destruct s; [reflexivity | cbn in Hle; lia].
  - destruct s as [|c1 s1]; [reflexivity|]. cbn [trimStart_rev]. trim_loop IH H.
Qed.

Lemma trim_keeps (s : string) : noDigit s = true -> noDigit (trim s) = true.
Proof.
  intros H. unfold trim, trimEnd.
  rewrite rev_keeps. apply trimStart_rev_keeps.
  rewrite rev_keeps. now apply trimStart_keeps.
Qed.

(** A string with no digit that is not blank converts to NaN or to an
    infinity. *)
Lemma not_finite (s : string) :
  noDigit s = true -> trim s <> EmptyString ->
  isFinite (StringToNumber s) = false.
Proof.
  intros H Hne. apply trim_keeps in H. unfold StringToNumber.
  destruct (trim s) as [|c t] eqn:Et; [contradiction|].
  rewrite (nonDecimal_none _ H).
  pose proof (stripSign_keeps _ H) as Hu.
  destruct (stripSign (String c t)) as [neg u]. cbn [snd] in Hu.
  destruct (String.eqb u "Infinity"); [reflexivity|].
  now rewrite (unsignedDecimal_none _ Hu).
Qed.

End NoDigit.

(** ** App *)

Module AppFacts.
Import App NumberFacts.

Lemma keys_differ : LS_KEYS.eli5 <> LS_KEYS.fontSize.
Proof. discriminate. Qed.

Lemma of_Z_canonical (z : Z) : canonical (JS.of_Z z).
Proof. apply Qred_iff. cbn. apply Z.gcd_1_r. Qed.

Lemma clamp_slider_canonical (n : JS.number) :
  canonical n -> canonical (clamp n (JS.of_Z 14) (JS.of_Z 24)).
Proof. intros H. apply clamp_canonical; auto using of_Z_canonical. Qed.

Lemma initFontSize_canonical (ls : gmap string string) : canonical (initFontSize ls).
Proof.
  unfold initFontSize.
  destruct (JS.isFinite _); [|apply of_Z_canonical].
  apply clamp_slider_canonical, Number_canonical.
Qed.

Lemma initFontSize_inRange (ls : gmap string string) : inRange (initFontSize ls) = true.
Proof.
  unfold initFontSize.
  destruct (JS.Number (ls !! LS_KEYS.fontSize)) as [|b|q] eqn:E; try reflexivity.
  cbn [JS.isFinite]. now apply clamp_inRange.
Qed.

(** The mount-only effect queues at most a call of [setEli5]. *)
Lemma loadEli5_fontSize (st : state) (ls : gmap string string) :
  fontSize (flush apply st (loadEli5 ls)) = fontSize st.
Proof.
  unfold loadEli5. destruct (ls !! LS_KEYS.eli5) as [s|]; [|reflexivity].
  now destruct (JS.falsy s).
Qed.

Lemma mount_eli5 (ls : gmap string string) :
  eli5 (mount ls).1
  = match ls !! LS_KEYS.eli5 with
    | Some s => String.eqb s "true"
    | None => false
    end.
Proof.
  unfold mount, loadEli5. cbn [fst].
  destruct (ls !! LS_KEYS.eli5) as [[|c s]|]; reflexivity.
Qed.

Lemma mount_fontSize (ls : gmap string string) :
  fontSize (mount ls).1 = initFontSize ls.
Proof. unfold mount. cbn [fst]. now rewrite loadEli5_fontSize. Qed.

(** The effects re-establish [synced] after any change of state. *)
Lemma effects_synced (old new : state) (ls : gmap string string) :
  synced (old, ls) -> canonical (fontSize new) -> synced (new, effects old new ls).
Proof.
  unfold synced. cbn [fst snd]. intros (He & Hf & Hc) Hn.
  unfold effects, persistEli5, persistFontSize.
  pose proof keys_differ as Hk.
  destruct (Bool.eqb (eli5 old) (eli5 new)) eqn:Eb;
    [apply eqb_prop in Eb|];
    (destruct (JS.Object_is (fontSize old) (fontSize new)) eqn:Ef;
     [apply Object_is_eq in Ef; [|assumption..]|]);
    repeat split; try assumption;
    rewrite ?lookup_insert_eq, ?lookup_insert_ne by congruence;
    rewrite ?lookup_insert_eq; congruence.
Qed.

Lemma mount_synced (ls : gmap string string) : synced (mount ls).
Proof.
  unfold mount. apply effects_synced.
  - unfold synced, persistFontSize, persistEli5. cbn [fst snd eli5 fontSize].
    pose proof keys_differ as Hk.
    repeat split.
    + rewrite lookup_insert_ne by congruence. now rewrite lookup_insert_eq.
    + now rewrite lookup_insert_eq.
    + apply initFontSize_canonical.
  - rewrite loadEli5_fontSize. apply initFontSize_canonical.
Qed.

Lemma step_synced (p : page) (ev : event) : synced p -> synced (step p ev).
Proof.
  destruct p as [st ls]. intros H. unfold step. cbn [fst snd].
  apply effects_synced; [exact H|].
  destruct ev as [|value]; cbn.
  - apply H.
  - apply clamp_slider_canonical, (Number_canonical (Some value)).
Qed.

Lemma run_synced (evs : list event) (p : page) : synced p -> synced (run evs p).
Proof.
  revert p. induction evs as [|ev evs IH]; intros p H; [exact H|].
  apply IH, step_synced, H.
Qed.

Lemma step_inRange (p : page) (ev : event) :
  numeric ev -> inRange (fontSize p.1) = true -> inRange (fontSize (step p ev).1) = true.
Proof.
  destruct ev as [|value]; cbn; [auto|].
  intros Hv _. now apply clamp_inRange.
Qed.

Lemma run_inRange (evs : list event) (p : page) :
  Forall numeric evs -> inRange (fontSize p.1) = true ->
  inRange (fontSize (run evs p).1) = true.
Proof.
  revert p. induction evs as [|ev evs IH]; intros p Hall H; [exact H|].
  inversion Hall as [|? ? Hev Hrest]; subst.
  apply IH; [exact Hrest|]. now apply step_inRange.
Qed.

(** In range means: a finite Number between 14 and 24. *)
Lemma inRange_spec (n : JS.number) :
  inRange n = true <-> exists q, n = JS.Finite q /\ (14 <= q <= 24)%Q.
Proof.
  unfold inRange, JS.of_Z. split.
  - destruct n as [|[]|q]; cbn; try discriminate.
    intros H. apply andb_true_iff in H as [H1 H2].
    exists q. split; [reflexivity|]. split; now apply Qle_bool_iff.
  - intros (q & -> & H1 & H2). cbn [JS.leb].
    apply andb_true_iff. split; now apply Qle_bool_iff.
Qed.

(** The eleven slider positions. *)
Lemma positions (v : Z) (P : Z -> Prop) :
  14 <= v <= 24 ->
  P 14 -> P 15 -> P 16 -> P 17 -> P 18 -> P 19 -> P 20 -> P 21 -> P 22 ->
  P 23 -> P 24 -> P v.
Proof.
  intros Hv.
  assert (v = 14 \/ v = 15 \/ v = 16 \/ v = 17 \/ v = 18 \/ v = 19 \/ v = 20
          \/ v = 21 \/ v = 22 \/ v = 23 \/ v = 24) as H by lia.
  intuition (subst; assumption).
Qed.

Example position_strings :
  map position [14; 15; 16; 17; 18; 19; 20; 21; 22; 23; 24]
  = ["14"; "15"; "16"; "17"; "18"; "19"; "20"; "21"; "22"; "23"; "24"].
Proof. reflexivity. Qed.

Lemma position_changed (v : Z) :
  14 <= v <= 24 ->
  clamp (JS.Number (Some (position v))) (JS.of_Z 14) (JS.of_Z 24) = JS.of_Z v.
Proof. intros Hv. pattern v. apply (positions v); [exact Hv | reflexivity..]. Qed.

Lemma position_stored (v : Z) :
  14 <= v <= 24 -> JS.NumberToString (JS.of_Z v) = position v.
Proof.
  intros Hv. pattern v. apply (positions v); [exact Hv | vm_compute; reflexivity..].
Qed.

Lemma position_loaded (v : Z) (ls : gmap string string) :
  14 <= v <= 24 ->
  ls !! LS_KEYS.fontSize = Some (position v) -> initFontSize ls = JS.of_Z v.
Proof.
  intros Hv Hls. unfold initFontSize. rewrite Hls. revert Hv. clear.
  intros Hv. pattern v. apply (positions v); [exact Hv | reflexivity..].
Qed.

End AppFacts.

(** ** The stored preferences *)

Module Preferences.
Import App NumberFacts AppFacts.

(** C2 as stated fails on the stored string "18.5": it is no decimal
    integer string, and the font size loaded from it is 18.5, not 16. *)
Lemma fontSize_stored_fraction_kept :
  decimalInteger "18.5" = false
  /\ initFontSize {[ LS_KEYS.fontSize := "18.5" ]} = JS.Finite (37 # 2)
  /\ JS.Finite (37 # 2) <> JS.of_Z 16.
Proof. repeat split. discriminate. Qed.

(** Other stored strings that are no decimal integer strings and load as
    the Number they convert to, clamped. *)
Example fontSize_stored_literals :
  map (fun s => (decimalInteger s, initFontSize {[ LS_KEYS.fontSize := s ]}))
      ["0x12"; " 20 "; "+21"; "2.2e1"; "1e1"; "99.9"]
  = [ (false, JS.of_Z 18); (false, JS.of_Z 20); (false, JS.of_Z 21);
      (false, JS.of_Z 22); (false, JS.of_Z 14); (false, JS.of_Z 24) ].
Proof. reflexivity. Qed.

(** C2, amended: a stored string that [Number] does not convert to a finite
    Number loads as the default 16, and so does in particular every stored
    string that is not blank and holds no decimal digit; a stored string
    that is not blank and converts to a finite Number, a decimal integer or
    not, loads as that Number clamped. *)
Theorem fontSize_default_when_not_finite (ls : gmap string string) (s : string) :
  ls !! LS_KEYS.fontSize = Some s ->
  (JS.isFinite (JS.StringToNumber s) = false -> initFontSize ls = JS.of_Z 16)
  /\ (noDigit s = true -> JS.trim s <> EmptyString -> initFontSize ls = JS.of_Z 16)
  /\ (JS.trim s <> EmptyString -> JS.isFinite (JS.StringToNumber s) = true ->
      initFontSize ls = clamp (JS.StringToNumber s) (JS.of_Z 14) (JS.of_Z 24)).
Proof.
  intros Hls. unfold initFontSize. rewrite Hls. cbn [JS.Number].
  repeat split.
  - now intros ->.
  - intros Hd Hne. now rewrite (NoDigit.not_finite s Hd Hne).
  - now intros _ ->.
Qed.

Lemma fontSize_default_when_not_finite_witness :
  initFontSize {[ LS_KEYS.fontSize := "12px" ]} = JS.of_Z 16.
Proof.
  refine (proj1 (fontSize_default_when_not_finite
                   {[ LS_KEYS.fontSize := "12px" ]} "12px" _) _);
    reflexivity.
Defined.

(** C3, on a storage that holds nothing: the page loads with simplified
    mode off and the font size 14 (not 16: [Number(null)] is 0, a finite
    Number, which is clamped); the quiz is unanswered, the help panel is
    collapsed and its log holds the greeting only. *)
Theorem fresh_load_state :
  (mount ∅).1 = {| eli5 := false; fontSize := JS.of_Z 14 |}
  /\ JS.of_Z 14 <> JS.of_Z 16
  /\ Quiz.initial = None
  /\ HelpWidget.open HelpWidget.initial = false
  /\ HelpWidget.messages HelpWidget.initial = [HelpWidget.greeting].
Proof. repeat split. discriminate. Qed.

(** C4: for an integer [v] from 14 to 24, after the slider is set to [v]
    (at any moment of a session started on any storage) the font size is
    [v], the storage holds the decimal string of [v] under the font-size key,
    and the initializer run on that storage, alone or in a reload of the
    page, restores [v]. *)
Theorem fontSize_round_trip (v : Z) (ls : gmap string string) (evs : list event) :
  14 <= v <= 24 ->
  let p := step (run evs (mount ls)) (FontChange (position v)) in
  fontSize p.1 = JS.of_Z v
  /\ p.2 !! LS_KEYS.fontSize = Some (position v)
  /\ initFontSize p.2 = JS.of_Z v
  /\ fontSize (mount p.2).1 = JS.of_Z v.
Proof.
  intros Hv p.
  assert (Hfs : fontSize p.1 = JS.of_Z v) by exact (position_changed v Hv).
  assert (Hst : p.2 !! LS_KEYS.fontSize = Some (position v)).
  { destruct (step_synced _ (FontChange (position v))
                (run_synced evs _ (mount_synced ls))) as (_ & H & _).
    fold p in H. rewrite H, Hfs. f_equal. now apply position_stored. }
  pose proof (position_loaded v p.2 Hv Hst) as Hld.
  rewrite mount_fontSize. auto.
Qed.

Lemma fontSize_round_trip_witness :
  initFontSize (step (run [Toggle] (mount ∅)) (FontChange (position 19))).2
  = JS.of_Z 19.
Proof.
  assert (14 <= 19 <= 24) as Hv by lia.
  exact (proj1 (proj2 (proj2 (fontSize_round_trip 19 ∅ [Toggle] Hv)))).
Defined.

(** C5: the font size is within 14 and 24 when it is loaded, whatever the
    storage holds, and after a slider change with any numeric value; so in
    a session whose slider values are numeric it is within 14 and 24 at
    every moment, and what the storage holds under the font-size key is the
    string of that font size. *)
Theorem fontSize_always_in_range (ls : gmap string string) :
  inRange (initFontSize ls) = true
  /\ (forall value : string,
         JS.isNaN (JS.Number (Some value)) = false ->
         inRange (clamp (JS.Number (Some value)) (JS.of_Z 14) (JS.of_Z 24)) = true)
  /\ (forall evs : list event,
         Forall numeric evs ->
         let p := run evs (mount ls) in
         inRange (fontSize p.1) = true
         /\ p.2 !! LS_KEYS.fontSize = Some (JS.NumberToString (fontSize p.1))).
Proof.
  split; [apply initFontSize_inRange|]. split.
  - intros value Hv. now apply clamp_inRange.
  - intros evs Hall p. split.
    + apply run_inRange; [exact Hall|].
      rewrite mount_fontSize. apply initFontSize_inRange.
    + apply (run_synced evs _ (mount_synced ls)).
Qed.

Lemma fontSize_always_in_range_witness :
  inRange (clamp (JS.Number (Some "99")) (JS.of_Z 14) (JS.of_Z 24)) = true.
Proof.
  apply (proj1 (proj2 (fontSize_always_in_range ∅)) "99"). reflexivity.
Defined.

(** C10: the page loads with simplified mode on exactly when the storage
    holds the string "true" under "app:eli5"; an absent or empty value
    queues no update (the initial [false] stays), and any other string sets
    the flag to [false]. *)
Theorem eli5_loaded (ls : gmap string string) :
  (eli5 (mount ls).1 = true <-> ls !! LS_KEYS.eli5 = Some "true")
  /\ (ls !! LS_KEYS.eli5 = None \/ ls !! LS_KEYS.eli5 = Some EmptyString ->
      loadEli5 ls = [] /\ eli5 (mount ls).1 = false)
  /\ (forall s, ls !! LS_KEYS.eli5 = Some s -> s <> EmptyString -> s <> "true" ->
                eli5 (mount ls).1 = false).
Proof.
  rewrite mount_eli5. repeat split.
  - destruct (ls !! LS_KEYS.eli5) as [s|]; [|discriminate].
    intros H. apply String.eqb_eq in H. now subst.
  - now intros ->.
  - unfold loadEli5. now destruct H as [-> | ->].
  - now destruct H as [-> | ->].
  - intros s H _ Hne. rewrite H. now apply String.eqb_neq.
Qed.

Lemma eli5_loaded_witness :
  eli5 (mount {[ LS_KEYS.eli5 := "yes" ]}).1 = false.
Proof.
  apply (proj2 (proj2 (eli5_loaded {[ LS_KEYS.eli5 := "yes" ]})) "yes");
    [reflexivity | discriminate | discriminate].
Defined.

End Preferences.

(** ** clamp, for any bounds *)

Module ClampFacts.
Import JS.

(** Comparisons of rationals as propositions, and what follows from them. *)
Ltac order :=
  repeat match goal with
    | H : Qle_bool _ _ = true |- _ => apply Qle_bool_iff in H
    | H : Qle_bool ?a ?b = false |- _ =>
        assert (~ (a <= b)%Q) by (rewrite <- Qle_bool_iff; congruence); clear H
    | |- Qle_bool _ _ = true => apply Qle_bool_iff
    | |- Qeq_bool _ _ = true => apply Qeq_bool_iff
    end;
  try reflexivity; try discriminate; try lra.

(** Case analysis on the three Numbers and on every comparison made. *)
Ltac cases :=
  unfold clamp, Math.min, Math.max, leb, Object_is, isNaN in *;
  repeat match goal with
    | n : number |- _ => destruct n as [|[]|?]
    end;
  try discriminate; try reflexivity;
  repeat match goal with
    | |- context [Qle_bool ?a ?b] => destruct (Qle_bool a b) eqn:?
    end;
  order.

(** For bounds in order and a Number that is not NaN (an infinity
    included), the result lies within the bounds. *)
Theorem between (n lo hi : number) :
  isNaN n = false -> leb lo hi = true ->
  leb lo (clamp n lo hi) = true /\ leb (clamp n lo hi) hi = true.
Proof. intros Hn Hb. split; cases. Qed.

Lemma between_witness :
  leb (Finite (1 # 2)) (clamp (Infinity true) (Finite (1 # 2)) (of_Z 3)) = true
  /\ leb (clamp (Infinity true) (Finite (1 # 2)) (of_Z 3)) (of_Z 3) = true.
Proof. apply (between (Infinity true) (Finite (1 # 2)) (of_Z 3)); reflexivity. Defined.



(** Clamping twice is clamping once, for any three Numbers: bounds in
    order or not, NaN anywhere. *)
Theorem idempotent (n lo hi : number) :
  Object_is (clamp (clamp n lo hi) lo hi) (clamp n lo hi) = true.
Proof. cases. Qed.

(** With the bounds the wrong way round (the lower above the upper) the
    result is the lower bound, whatever the Number. *)
Theorem inverted (n lo hi : number) :
  isNaN n = false -> isNaN lo = false -> isNaN hi = false ->
  leb lo hi = false -> clamp n lo hi = lo.
Proof. intros Hn Hlo Hhi Hb. cases. Qed.

Lemma inverted_witness : clamp (of_Z 18) (of_Z 24) (of_Z 14) = of_Z 24.
Proof. apply (inverted (of_Z 18) (of_Z 24) (of_Z 14)); reflexivity. Defined.

(** For bounds in order, a larger Number never gives a smaller result. *)
Theorem monotone (a b lo hi : number) :
  leb a b = true -> leb lo hi = true ->
  leb (clamp a lo hi) (clamp b lo hi) = true.
Proof. intros Hab Hb. cases. Qed.

Lemma monotone_witness :
  leb (clamp (of_Z 3) (of_Z 14) (of_Z 24)) (clamp (Finite (37 # 2)) (of_Z 14) (of_Z 24))
  = true.
Proof.
  apply (monotone (of_Z 3) (Finite (37 # 2)) (of_Z 14) (of_Z 24)); reflexivity.
Defined.

(** NaN is not caught: when the Number or either bound is NaN, so is the
    result. *)
Theorem NaN_in (n lo hi : number) :
  isNaN n = true \/ isNaN lo = true \/ isNaN hi = true -> clamp n lo hi = NaN.
Proof. intros [H | [H | H]]; cases. Qed.

Lemma NaN_in_witness : clamp (of_Z 18) NaN (of_Z 24) = NaN.
Proof. apply (NaN_in (of_Z 18) NaN (of_Z 24)). right. left. reflexivity. Defined.

End ClampFacts.

(** ** Sessions of the page *)

Module AppSession.
Import App NumberFacts AppFacts.

(** On a storage in step with the state before, the effects leave exactly
    what both persisting effects would write for the state after. *)
Lemma effects_persist (old new : state) (ls : gmap string string) :
  synced (old, ls) -> canonical (fontSize new) ->
  effects old new ls = persistFontSize new (persistEli5 new ls).
Proof.
  unfold synced. cbn [fst snd]. intros (He & Hf & Hc) Hn.
  unfold effects, persistEli5, persistFontSize.
  pose proof keys_differ as Hk.
  destruct (Bool.eqb (eli5 old) (eli5 new)) eqn:Eb;
    [apply eqb_prop in Eb; rewrite <- Eb; rewrite (insert_id _ _ _ He)|];
    (destruct (JS.Object_is (fontSize old) (fontSize new)) eqn:Ef;
     [apply Object_is_eq in Ef; [|assumption..]; rewrite <- Ef|]);
    try reflexivity.
  - now rewrite (insert_id _ _ _ Hf).
  - symmetry. apply insert_id. now rewrite lookup_insert_ne by congruence.
Qed.

Lemma effects_other (old new : state) (ls : gmap string string) (k : string) :
  k <> LS_KEYS.eli5 -> k <> LS_KEYS.fontSize -> effects old new ls !! k = ls !! k.
Proof.
  intros H1 H2. unfold effects, persistEli5, persistFontSize.
  destruct (Bool.eqb _ _), (JS.Object_is _ _);
    now rewrite ?lookup_insert_ne by congruence.
Qed.

Lemma step_other (p : page) (ev : event) (k : string) :
  k <> LS_KEYS.eli5 -> k <> LS_KEYS.fontSize -> (step p ev).2 !! k = p.2 !! k.
Proof. intros H1 H2. unfold step. cbn [snd]. now apply effects_other. Qed.

Lemma mount_other (ls : gmap string string) (k : string) :
  k <> LS_KEYS.eli5 -> k <> LS_KEYS.fontSize -> (mount ls).2 !! k = ls !! k.
Proof.
  intros H1 H2. unfold mount. cbn [snd]. rewrite effects_other by assumption.
  unfold persistFontSize, persistEli5. now rewrite !lookup_insert_ne by congruence.
Qed.

(** The side conditions on keys. *)
Ltac keys := first [assumption | congruence | discriminate | apply not_eq_sym; assumption].

Lemma reachable_synced (ls : gmap string string) (evs : list event) :
  synced (run evs (mount ls)).
Proof. apply run_synced, mount_synced. Qed.

(** The state and the storage after an event on a page in step. *)
Lemma step_persist (p : page) (ev : event) :
  synced p ->
  step p ev
  = (flush apply p.1 (handler ev),
     persistFontSize (flush apply p.1 (handler ev))
       (persistEli5 (flush apply p.1 (handler ev)) p.2)).
Proof.
  intros H. unfold step. f_equal. destruct p as [st ls].
  apply effects_persist; [exact H|].
  destruct ev as [|value]; cbn.
  - apply H.
  - apply clamp_slider_canonical, (Number_canonical (Some value)).
Qed.

Lemma BooleanToString_true (b : bool) :
  String.eqb (JS.BooleanToString b) "true" = b.
Proof. now destruct b. Qed.

(** Two pages are the same when their states are and their storages agree
    on the two preference keys and elsewhere. *)
Lemma page_eq (p q : page) :
  p.1 = q.1 ->
  p.2 !! LS_KEYS.eli5 = q.2 !! LS_KEYS.eli5 ->
  p.2 !! LS_KEYS.fontSize = q.2 !! LS_KEYS.fontSize ->
  (forall k, k <> LS_KEYS.eli5 -> k <> LS_KEYS.fontSize -> p.2 !! k = q.2 !! k) ->
  p = q.
Proof.
  destruct p as [st ls], q as [st' ls']. cbn [fst snd].
  intros -> He Hf Ho. f_equal. apply map_eq. intros k.
  destruct (decide (k = LS_KEYS.eli5)) as [->|]; [exact He|].
  destruct (decide (k = LS_KEYS.fontSize)) as [->|]; [exact Hf|].
  now apply Ho.
Qed.

(** A session never touches a key of the storage other than its two: what
    else the storage held when the page was loaded, it still holds. *)
Theorem storage_frame (ls : gmap string string) (evs : list event) (k : string) :
  k <> LS_KEYS.eli5 -> k <> LS_KEYS.fontSize ->
  (run evs (mount ls)).2 !! k = ls !! k.
Proof.
  intros H1 H2. rewrite <- (mount_other ls k H1 H2).
  generalize (mount ls). induction evs as [|ev evs IH]; intros p; [reflexivity|].
  cbn [run fold_left]. fold (run evs (step p ev)). rewrite IH.
  now apply step_other.
Qed.

Lemma storage_frame_witness :
  (run [Toggle; FontChange "20"] (mount {[ "theme" := "dark" ]})).2 !! "theme"
  = Some "dark".
Proof.
  rewrite (storage_frame {[ "theme" := "dark" ]} [Toggle; FontChange "20"] "theme");
    [reflexivity | discriminate | discriminate].
Defined.

(** After any session the storage holds "true" or "false" under "app:eli5"
    as the flag stands, and a reload of the page restores the flag. *)
Theorem eli5_round_trip (ls : gmap string string) (evs : list event) :
  let p := run evs (mount ls) in
  p.2 !! LS_KEYS.eli5 = Some (if eli5 p.1 then "true" else "false")
  /\ eli5 (mount p.2).1 = eli5 p.1.
Proof.
  intros p. destruct (reachable_synced ls evs) as (He & _). fold p in He.
  split; [exact He|].
  rewrite mount_eli5, He. apply BooleanToString_true.
Qed.

(** Activating the switch twice gives back the page as it was, state and
    storage. *)
Theorem toggle_twice (ls : gmap string string) (evs : list event) :
  let p := run evs (mount ls) in
  step (step p Toggle) Toggle = p.
Proof.
  intros p. pose proof (reachable_synced ls evs) as H. fold p in H.
  pose proof (step_synced p Toggle H) as H'.
  rewrite (step_persist _ Toggle H'), (step_persist _ Toggle H).
  destruct H as (He & Hf & _). destruct p as [[e fs] st].
  cbn [fst snd eli5 fontSize] in He, Hf.
  cbn [fst snd handler flush fold_left apply eli5 fontSize].
  unfold persistFontSize, persistEli5. cbn [eli5 fontSize].
  rewrite negb_involutive.
  apply page_eq; cbn [fst snd].
  - reflexivity.
  - rewrite lookup_insert_ne by keys. now rewrite lookup_insert_eq.
  - now rewrite lookup_insert_eq.
  - intros k H1 H2. now rewrite !lookup_insert_ne by keys.
Qed.

(** Of two slider changes in a row only the second counts: the page is the
    one the second alone would give. *)
Theorem last_slider_value_wins (ls : gmap string string) (evs : list event)
    (a b : string) :
  let p := run evs (mount ls) in
  step (step p (FontChange a)) (FontChange b) = step p (FontChange b).
Proof.
  intros p. pose proof (reachable_synced ls evs) as H. fold p in H.
  pose proof (step_synced p (FontChange a) H) as H'.
  rewrite (step_persist _ (FontChange b) H'), (step_persist _ (FontChange a) H),
    (step_persist _ (FontChange b) H).
  destruct p as [[e fs] st].
  cbn [fst snd handler flush fold_left apply eli5 fontSize].
  unfold persistFontSize, persistEli5. cbn [eli5 fontSize].
  apply page_eq; cbn [fst snd].
  - reflexivity.
  - rewrite !(lookup_insert_ne _ LS_KEYS.fontSize) by keys.
    now rewrite !lookup_insert_eq.
  - now rewrite !lookup_insert_eq.
  - intros k H1 H2. now rewrite !lookup_insert_ne by keys.
Qed.

(** The switch and the slider do not interfere: in either order the two
    events give the same page, from any page. *)
Theorem toggle_slider_commute (p : page) (value : string) :
  step (step p Toggle) (FontChange value) = step (step p (FontChange value)) Toggle.
Proof.
  destruct p as [[e fs] ls]. unfold step, effects, persistEli5, persistFontSize.
  cbn [fst snd handler flush fold_left apply eli5 fontSize].
  rewrite eqb_negb2, !Bool.eqb_reflx, !Object_is_refl.
  destruct (JS.Object_is fs _); [reflexivity|].
  f_equal. apply insert_insert_ne. keys.
Qed.

Lemma mount_state (ls : gmap string string) :
  (mount ls).1
  = {| eli5 := match ls !! LS_KEYS.eli5 with
               | Some s => String.eqb s "true"
               | None => false
               end;
       fontSize := initFontSize ls |}.
Proof. rewrite <- mount_eli5, <- mount_fontSize. now destruct (mount ls).1. Qed.

(** With the slider on one of its positions, a reload gives back the very
    page that was left: the same state and the same storage. *)
Theorem reload_restores_page (ls : gmap string string) (evs : list event) (v : Z) :
  14 <= v <= 24 ->
  let p := run evs (mount ls) in
  fontSize p.1 = JS.of_Z v -> mount p.2 = p.
Proof.
  intros Hv p Hfs.
  destruct (reachable_synced ls evs) as (He & Hf & _). fold p in He, Hf.
  assert (Hst : (mount p.2).1 = p.1).
  { rewrite mount_state, He, BooleanToString_true.
    rewrite (position_loaded v p.2 Hv).
    - rewrite <- Hfs. now destruct p.1.
    - rewrite Hf, Hfs. f_equal. now apply position_stored. }
  destruct (mount_synced p.2) as (He' & Hf' & _).
  apply page_eq.
  - exact Hst.
  - now rewrite He', Hst, He.
  - now rewrite Hf', Hst, Hf.
  - intros k. apply mount_other.
Qed.

Lemma reload_restores_page_witness :
  mount (run [FontChange "20"; Toggle] (mount ∅)).2
  = run [FontChange "20"; Toggle] (mount ∅).
Proof.
  assert (14 <= 20 <= 24) as Hv by lia.
  refine (reload_restores_page ∅ [FontChange "20"; Toggle] 20 Hv _).
  vm_compute. reflexivity.
Defined.

(** A slider value that is not numeric is not caught: the font size
    becomes NaN and the storage holds "NaN"; the next load of the page then
    falls back to 16. *)
Theorem slider_not_numeric (ls : gmap string string) (evs : list event)
    (value : string) :
  JS.isNaN (JS.Number (Some value)) = true ->
  let p := step (run evs (mount ls)) (FontChange value) in
  fontSize p.1 = JS.NaN
  /\ p.2 !! LS_KEYS.fontSize = Some "NaN"
  /\ initFontSize p.2 = JS.of_Z 16.
Proof.
  intros Hv p.
  assert (Hfs : fontSize p.1 = JS.NaN).
  { change (fontSize p.1)
      with (clamp (JS.Number (Some value)) (JS.of_Z 14) (JS.of_Z 24)).
    destruct (JS.Number (Some value)); [|discriminate..].
    apply clamp_NaN. }
  assert (Hst : p.2 !! LS_KEYS.fontSize = Some "NaN").
  { destruct (step_synced _ (FontChange value) (reachable_synced ls evs))
      as (_ & H & _).
    fold p in H. now rewrite H, Hfs. }
  repeat split; [exact Hfs | exact Hst |].
  unfold initFontSize. now rewrite Hst.
Qed.

Lemma slider_not_numeric_witness :
  initFontSize (step (run [Toggle] (mount ∅)) (FontChange "large")).2 = JS.of_Z 16.
Proof.
  refine (proj2 (proj2 (slider_not_numeric ∅ [Toggle] "large" _))). reflexivity.
Defined.

(** With nothing stored under the font-size key, or a blank string, the
    initializer does not reach its fallback: the value read converts to 0,
    which is finite, and the font size is the lower bound 14. *)
Theorem fontSize_absent_or_blank (ls : gmap string string) :
  ls !! LS_KEYS.fontSize = None
  \/ (exists s, ls !! LS_KEYS.fontSize = Some s /\ JS.trim s = EmptyString) ->
  initFontSize ls = JS.of_Z 14.
Proof.
  unfold initFontSize. intros [-> | (s & -> & Hs)]; [reflexivity|].
  cbn [JS.Number]. unfold JS.StringToNumber. now rewrite Hs.
Qed.

Lemma fontSize_absent_or_blank_witness :
  initFontSize {[ LS_KEYS.eli5 := "true"; LS_KEYS.fontSize := "  " ]} = JS.of_Z 14.
Proof.
  apply fontSize_absent_or_blank. right. exists "  ". split; reflexivity.
Defined.

(** With the slider set to a position [v], the class the page is drawn
    with names [v] pixels, the size the storage holds. *)
Theorem fontClass_of_position (ls : gmap string string) (evs : list event) (v : Z) :
  14 <= v <= 24 ->
  let p := step (run evs (mount ls)) (FontChange (position v)) in
  fontClass p.1 = "text-[" +:+ position v +:+ "px]"
  /\ p.2 !! LS_KEYS.fontSize = Some (position v).
Proof.
  intros Hv p.
  assert (Hfs : fontSize p.1 = JS.of_Z v) by exact (position_changed v Hv).
  split.
  - unfold fontClass. rewrite Hfs. now rewrite (position_stored v Hv).
  - destruct (step_synced _ (FontChange (position v)) (reachable_synced ls evs))
      as (_ & H & _).
    fold p in H. rewrite H, Hfs. f_equal. now apply position_stored.
Qed.

Lemma fontClass_of_position_witness :
  fontClass (step (run [Toggle] (mount ∅)) (FontChange (position 22))).1
  = "text-[22px]".
Proof.
  assert (14 <= 22 <= 24) as Hv by lia.
  exact (proj1 (fontClass_of_position ∅ [Toggle] 22 Hv)).
Defined.

(** The switch and the cards agree in every state: the switch is drawn
    pressed, labelled ON and with its knob moved over exactly when the cards
    show the simplified texts; activating it flips that. *)
Theorem switch_matches_cards (st : state) :
  map shownText (cards st)
  = map (fun l => [if ToggleButton.aria_pressed (switch st)
                   then Lesson.eli5 l else normal l]) lessons
  /\ ToggleButton.children (switch st)
     = (if ToggleButton.aria_pressed (switch st) then "ELI5: ON" else "ELI5: OFF")
  /\ existsb (String.eqb "translate-x-4") (ToggleButton.knob (switch st))
     = ToggleButton.aria_pressed (switch st)
  /\ existsb (String.eqb "bg-emerald-600") (ToggleButton.className (switch st))
     = ToggleButton.aria_pressed (switch st)
  /\ (forall ls : gmap string string,
         ToggleButton.aria_pressed (switch (step (st, ls) Toggle).1)
         = negb (ToggleButton.aria_pressed (switch st))).
Proof. destruct st as [[] fs]; repeat split. Qed.

(** The [id]s of the page are pairwise distinct, so the lesson sections'
    React keys are; every link of the navigation bar targets one of them;
    and no element has the id "help-panel" that the help button's
    [aria-controls] names. *)
Theorem ids_distinct_and_linked :
  NoDup ids
  /\ Forall (fun link => exists i, In i ids /\ link.1 = "#" +:+ i) nav
  /\ ~ In "help-panel" ids.
Proof.
  unfold nav, ids. cbn [lessons map app id]. split; [|split].
  - repeat (apply NoDup_cons_2;
            [rewrite ?elem_of_cons, elem_of_nil; intuition discriminate|]).
    apply NoDup_nil_2.
  - repeat (constructor; [eexists; split; [|reflexivity]; cbn; tauto|]).
    constructor.
  - cbn. intuition discriminate.
Qed.

End AppSession.

(** ** Sessions of the quiz *)

Module QuizSession.
Import Quiz.

(** Whatever was selected before, after a click exactly one option button
    is drawn filled, the one clicked, and the feedback paragraph is green
    with the positive text for the first option and red with the negative
    text for the other two; its text is [feedback] in every state.  Before
    any click no button is filled and there is no feedback paragraph. *)
Theorem clicked_button_filled (prev : state) :
  map (fun o => map children (filter highlighted (buttons (onClick o prev)))) options
  = [ ["The round button with a line"]; ["The mouse"]; ["The keyboard spacebar"] ]
  /\ map (fun o => feedbackView (onClick o prev)) options
     = [ Some {| tag := "p"; className := ["mt-3"; "font-medium"; "text-emerald-700"];
                 children := positive |};
         Some {| tag := "p"; className := ["mt-3"; "font-medium"; "text-rose-700"];
                 children := negative |};
         Some {| tag := "p"; className := ["mt-3"; "font-medium"; "text-rose-700"];
                 children := negative |} ]
  /\ option_map children (feedbackView prev) = feedback prev
  /\ filter highlighted (buttons initial) = []
  /\ feedbackView initial = None.
Proof.
  repeat split. destruct prev as [a|]; [|reflexivity].
  cbn. now destruct (JS.falsy a).
Qed.

End QuizSession.

(** ** Sessions of the help widget *)

Module HelpWidgetSession.
Import HelpWidget HelpWidgetFacts.

Lemma send_blank (st : state) :
  JS.trim (text st) = EmptyString -> step st ClickSend = st.
Proof. intros Ht. unfold step, handler, send. now rewrite Ht. Qed.

Lemma enter_is_send (st : state) : step st (KeyDown "Enter") = step st ClickSend.
Proof. reflexivity. Qed.

Lemma other_key (st : state) (key : string) :
  key <> "Enter" -> step st (KeyDown key) = st.
Proof.
  intros H. unfold step, handler. apply String.eqb_neq in H. now rewrite H.
Qed.

(** The three entries a send appends for the trimmed text [t]. *)
Local Abbreviation block t :=
  [ {| Message.from := you; Message.text := t |};
    {| Message.from := you; Message.text := t |};
    reply ].

(** What one event does to the log: nothing, or it appends the block of
    the trimmed text, which is not empty. *)
Lemma step_log (st : state) (ev : event) :
  messages (step st ev) = messages st
  \/ (JS.trim (text st) <> EmptyString
      /\ messages (step st ev) = messages st ++ block (JS.trim (text st))).
Proof.
  destruct (string_dec (JS.trim (text st)) EmptyString) as [Ht | Ht].
  - left. destruct ev as [value | key | | ]; try reflexivity.
    + destruct (string_dec key "Enter") as [-> | Hk].
      * now rewrite enter_is_send, send_blank.
      * now rewrite other_key.
    + now rewrite send_blank.
  - destruct ev as [value | key | | ]; try (left; reflexivity).
    + destruct (string_dec key "Enter") as [-> | Hk].
      * right. split; [exact Ht|]. now rewrite enter_is_send, send_nonblank.
      * left. now rewrite other_key.
    + right. split; [exact Ht|]. now rewrite send_nonblank.
Qed.

(** The log is append-only: after any events, from any state, it is the log
    before followed by what was added; no event removes or changes an
    entry. *)
Theorem log_append_only (evs : list event) (st : state) :
  exists added, messages (run evs st) = messages st ++ added.
Proof.
  revert st. induction evs as [|ev evs IH]; intros st.
  - exists []. cbn. now rewrite app_nil_r.
  - destruct (IH (step st ev)) as (added & Hadd).
    cbn [run fold_left]. fold (run evs (step st ev)). rewrite Hadd.
    destruct (step_log st ev) as [-> | (_ & ->)].
    + now exists added.
    + eexists. now rewrite <- app_assoc.
Qed.


(** Sending twice in a row sends once: the first send clears the input, so
    a second one (a double click, or Enter and then the button) adds
    nothing. *)
Theorem send_twice (st : state) :
  step (step st ClickSend) ClickSend = step st ClickSend
  /\ step (step st (KeyDown "Enter")) ClickSend = step st ClickSend.
Proof.
  rewrite enter_is_send. split.
  all: destruct (string_dec (JS.trim (text st)) EmptyString) as [Ht | Ht].
  all: try (now rewrite !send_blank by (now rewrite ?send_blank)).
  all: rewrite (send_nonblank st Ht); now apply send_blank.
Qed.

(** A send does not look at the open flag nor change it: with the panel
    collapsed it appends all the same, and a send and a toggle give the same
    state in either order. *)
Theorem send_toggle_commute (st : state) :
  open (step st ClickSend) = open st
  /\ messages (step (step st ClickToggle) ClickSend) = messages (step st ClickSend)
  /\ step (step st ClickToggle) ClickSend = step (step st ClickSend) ClickToggle.
Proof.
  unfold step, handler, send. cbn [flush fold_left apply text].
  destruct (JS.falsy (JS.trim (text st))); repeat split.
Qed.

(** After [n] toggles the panel is as it was when [n] is even and the
    other way round when [n] is odd; the log and the input are untouched. *)
Theorem toggle_parity (n : nat) (st : state) :
  run (repeat ClickToggle n) st
  = {| open := if Nat.even n then open st else negb (open st);
       messages := messages st;
       text := text st |}.
Proof.
  revert st. induction n as [|n IH]; intros st.
  - now destruct st.
  - cbn [repeat run fold_left]. fold (run (repeat ClickToggle n) (step st ClickToggle)).
    rewrite IH, Nat.even_succ, <- Nat.negb_even. cbn.
    destruct (Nat.even n); cbn; now rewrite ?negb_involutive.
Qed.

End HelpWidgetSession.
